(** * Package [internal] of grpc-go: the indirection registry

    [internal/internal.go] declares a block of package-level variables
    through which higher-level packages hand callbacks and values to
    the core, the function type [HealthChecker], and four string
    constants.  This development embeds the declarations, the three
    things a Go program can do with a package-level variable (assign a
    value, assign the zero value, read), and the health-check session
    that the [HealthChecker] documentation describes. *)

From Stdlib Require Import ZArith List String Bool Lia Permutation.
Import ListNotations.
Local Open Scope string_scope.
Local Open Scope list_scope.

Set Implicit Arguments.
Set Warnings "-register-all".

(** ** Go types, as syntax *)

Module GoTypes.

(** The types that occur in the declarations of [internal.go] and in
    the signatures its comments document. *)
Inductive GoType : Type :=
| TEmptyInterface                               (* interface{} *)
| TString
| TBool
| TError                                        (* error *)
| TContext                                      (* context.Context *)
| TConnState                                    (* connectivity.State *)
| TConfig                                       (* serviceconfig.Config *)
| TDuration                                     (* time.Duration *)
| TExtern (name : string)                       (* a type of another package *)
| TPtr (elem : GoType)                          (* *T *)
| TSlice (elem : GoType)                        (* []T, and ...T in last position *)
| TFunc (params results : list GoType)          (* func(params) results *)
| TNamed (name : string) (underlying : GoType). (* type name underlying *)

Fixpoint underlying_type (t : GoType) : GoType :=
  match t with
  | TNamed _ u => underlying_type u
  | _ => t
  end.

Definition is_func_type (t : GoType) : bool :=
  match underlying_type t with
  | TFunc _ _ => true
  | _ => false
  end.

Definition is_empty_interface (t : GoType) : bool :=
  match t with
  | TEmptyInterface => true
  | _ => false
  end.

End GoTypes.
Export GoTypes.

(** ** Package [time]: durations are int64 nanosecond counts *)

Module time.
Definition Duration : Type := Z.
Definition Nanosecond : Duration := 1%Z.
Definition Microsecond : Duration := (1000 * Nanosecond)%Z.
Definition Millisecond : Duration := (1000 * Microsecond)%Z.
Definition Second : Duration := (1000 * Millisecond)%Z.
End time.

(** ** Package [connectivity] *)

Module connectivity.
(** Modelled from the spec: the declaration of [connectivity.State] is
    in package [connectivity], not in [internal.go]; the enumeration is
    the one the
    specification lists (IDLE, CONNECTING, READY, TRANSIENT_FAILURE,
    SHUTDOWN), in that order, the first being the zero value. *)
Inductive State : Type :=
| Idle | Connecting | Ready | TransientFailure | Shutdown.
End connectivity.

(** ** What the package imports but does not define *)

(** [Payload] is the data word of an interface value, [Ctx] and [Config]
    are the non-nil implementations of [context.Context] and
    [serviceconfig.Config], [Err] the non-nil [error] values, and [M] the
    effect a Go function call has. *)
Class Imports : Type := {
  Payload : Type;
  Ctx : Type;
  Config : Type;
  Err : Type;
  M : Type -> Type
}.

(** ** The variables of package [internal] *)

Module Slot.

(** The names of the package-level variables, in declaration order. *)
Inductive name : Type :=
| WithHealthCheckFunc
| HealthCheckFunc
| BalancerUnregister
| KeepaliveMinPingTime
| ParseServiceConfig
| EqualServiceConfigForTesting
| GetCertificateProviderBuilder
| GetXDSHandshakeInfoForTesting
| GetServerCredentials
| DrainServerTransports
| AddExtraServerOptions
| ClearExtraServerOptions
| AddExtraDialOptions
| ClearExtraDialOptions
| NewXDSResolverWithConfigForTesting
| RegisterRLSClusterSpecifierPluginForTesting
| UnregisterRLSClusterSpecifierPluginForTesting
| RegisterRBACHTTPFilterForTesting
| UnregisterRBACHTTPFilterForTesting.

Definition eq_dec (a b : name) : {a = b} + {a <> b}.
Proof. decide equality. Defined.

Definition all : list name :=
  [ WithHealthCheckFunc; HealthCheckFunc; BalancerUnregister;
    KeepaliveMinPingTime; ParseServiceConfig;
    EqualServiceConfigForTesting; GetCertificateProviderBuilder;
    GetXDSHandshakeInfoForTesting; GetServerCredentials;
    DrainServerTransports; AddExtraServerOptions;
    ClearExtraServerOptions; AddExtraDialOptions;
    ClearExtraDialOptions; NewXDSResolverWithConfigForTesting;
    RegisterRLSClusterSpecifierPluginForTesting;
    UnregisterRLSClusterSpecifierPluginForTesting;
    RegisterRBACHTTPFilterForTesting;
    UnregisterRBACHTTPFilterForTesting ].

End Slot.

(** [type HealthChecker func(ctx context.Context,
      newStream func(string) (interface{}, error),
      setConnectivityState func(connectivity.State, error),
      serviceName string) error] *)
Definition T_HealthChecker : GoType :=
  TNamed "HealthChecker"
    (TFunc [ TContext;
             TFunc [TString] [TEmptyInterface; TError];
             TFunc [TConnState; TError] [];
             TString ]
           [TError]).

(** The type each variable is declared with. *)
Definition decl_type (s : Slot.name) : GoType :=
  match s with
  | Slot.WithHealthCheckFunc => TEmptyInterface
  | Slot.HealthCheckFunc => T_HealthChecker
  | Slot.BalancerUnregister => TFunc [TString] []
  | Slot.KeepaliveMinPingTime => TDuration
  | Slot.ParseServiceConfig => TEmptyInterface
  | Slot.EqualServiceConfigForTesting => TFunc [TConfig; TConfig] [TBool]
  | Slot.GetCertificateProviderBuilder => TEmptyInterface
  | Slot.GetXDSHandshakeInfoForTesting => TEmptyInterface
  | Slot.GetServerCredentials => TEmptyInterface
  | Slot.DrainServerTransports => TEmptyInterface
  | Slot.AddExtraServerOptions => TEmptyInterface
  | Slot.ClearExtraServerOptions => TFunc [] []
  | Slot.AddExtraDialOptions => TEmptyInterface
  | Slot.ClearExtraDialOptions => TFunc [] []
  | Slot.NewXDSResolverWithConfigForTesting => TEmptyInterface
  | Slot.RegisterRLSClusterSpecifierPluginForTesting => TFunc [] []
  | Slot.UnregisterRLSClusterSpecifierPluginForTesting => TFunc [] []
  | Slot.RegisterRBACHTTPFilterForTesting => TFunc [] []
  | Slot.UnregisterRBACHTTPFilterForTesting => TFunc [] []
  end.

(** The signature a variable's comment documents; for a variable of a
    concrete type it is the declared type itself. *)
Definition documented_sig (s : Slot.name) : GoType :=
  match s with
  | Slot.WithHealthCheckFunc =>
      TFunc [T_HealthChecker] [TExtern "DialOption"]
  | Slot.ParseServiceConfig =>
      TFunc [TString] [TPtr (TExtern "serviceconfig.ParseResult")]
  | Slot.GetCertificateProviderBuilder =>
      TFunc [TString] [TExtern "certprovider.Builder"]
  | Slot.GetXDSHandshakeInfoForTesting =>
      TFunc [TPtr (TExtern "attributes.Attributes")]
            [TPtr (TExtern "xds.HandshakeInfo")]
  | Slot.GetServerCredentials =>
      TFunc [TPtr (TExtern "grpc.Server")]
            [TExtern "credentials.TransportCredentials"]
  | Slot.DrainServerTransports =>
      TFunc [TPtr (TExtern "grpc.Server"); TString] []
  | Slot.AddExtraServerOptions =>
      TFunc [TSlice (TExtern "ServerOption")] []
  | Slot.AddExtraDialOptions =>
      TFunc [TSlice (TExtern "DialOption")] []
  | Slot.NewXDSResolverWithConfigForTesting =>
      TFunc [TSlice (TExtern "byte")] [TExtern "resolver.Builder"; TError]
  | s' => decl_type s'
  end.

Section Registry.

Context {I : Imports}.

(** *** Values *)

(** An interface value is nil or a dynamic type with a data word. *)
Record eface : Type := { dynType : GoType; data : Payload }.
Definition any : Type := option eface.
Definition error : Type := option Err.

(** The values of a Go type.  Interface, pointer and function types
    have a nil value ([None]); a call has the effect [M]. *)
Fixpoint denote (t : GoType) : Type :=
  match t with
  | TEmptyInterface => any
  | TString => string
  | TBool => bool
  | TError => error
  | TContext => option Ctx
  | TConnState => connectivity.State
  | TConfig => option Config
  | TDuration => time.Duration
  | TExtern _ => option Payload
  | TPtr _ => option Payload
  | TSlice e => list (denote e)
  | TFunc ps rs =>
      option
        ((fix arrows (l : list GoType) (R : Type) {struct l} : Type :=
            match l with
            | [] => R
            | p :: l' => denote p -> arrows l' R
            end) ps
           (M ((fix tuple (l : list GoType) {struct l} : Type :=
                  match l with
                  | [] => unit
                  | r :: l' =>
                      match l' with
                      | [] => denote r
                      | _ :: _ => (denote r * tuple l')%type
                      end
                  end) rs)))
  | TNamed _ u => denote u
  end.

(** The zero value of a type. *)
Fixpoint zero (t : GoType) : denote t :=
  match t as t0 return denote t0 with
  | TEmptyInterface => None
  | TString => ""
  | TBool => false
  | TError => None
  | TContext => None
  | TConnState => connectivity.Idle
  | TConfig => None
  | TDuration => 0%Z
  | TExtern _ => None
  | TPtr _ => None
  | TSlice _ => []
  | TFunc _ _ => None
  | TNamed _ u => zero u
  end.

(** The dynamic type of a value: nothing for nil. *)
Fixpoint dyn_type (t : GoType) : denote t -> option GoType :=
  match t as t0 return denote t0 -> option GoType with
  | TEmptyInterface => fun v => option_map dynType v
  | TError => fun v => option_map (fun _ => TError) v
  | TContext => fun v => option_map (fun _ => TContext) v
  | TConfig => fun v => option_map (fun _ => TConfig) v
  | TExtern n => fun v => option_map (fun _ => TExtern n) v
  | TPtr e => fun v => option_map (fun _ => TPtr e) v
  | TFunc ps rs => fun v => option_map (fun _ => TFunc ps rs) v
  | TNamed n u => fun v => option_map (fun _ => TNamed n u) (dyn_type u v)
  | t0 => fun _ => Some t0
  end.

(** *** The variable block *)

Definition HealthChecker : Type :=
  option (option Ctx ->
          option (string -> M (any * error)) ->
          option (connectivity.State -> error -> M unit) ->
          string -> M error).

Record Vars : Type := {
  WithHealthCheckFunc : any;
  HealthCheckFunc : HealthChecker;
  BalancerUnregister : option (string -> M unit);
  KeepaliveMinPingTime : time.Duration;
  ParseServiceConfig : any;
  EqualServiceConfigForTesting :
    option (option Config -> option Config -> M bool);
  GetCertificateProviderBuilder : any;
  GetXDSHandshakeInfoForTesting : any;
  GetServerCredentials : any;
  DrainServerTransports : any;
  AddExtraServerOptions : any;
  ClearExtraServerOptions : option (M unit);
  AddExtraDialOptions : any;
  ClearExtraDialOptions : option (M unit);
  NewXDSResolverWithConfigForTesting : any;
  RegisterRLSClusterSpecifierPluginForTesting : option (M unit);
  UnregisterRLSClusterSpecifierPluginForTesting : option (M unit);
  RegisterRBACHTTPFilterForTesting : option (M unit);
  UnregisterRBACHTTPFilterForTesting : option (M unit)
}.

Definition slot_type (s : Slot.name) : Type := denote (decl_type s).

(** Reading a variable. *)
Definition lookup (s : Slot.name) (st : Vars) : slot_type s :=
  match s as s0 return slot_type s0 with
  | Slot.WithHealthCheckFunc => WithHealthCheckFunc st
  | Slot.HealthCheckFunc => HealthCheckFunc st
  | Slot.BalancerUnregister => BalancerUnregister st
  | Slot.KeepaliveMinPingTime => KeepaliveMinPingTime st
  | Slot.ParseServiceConfig => ParseServiceConfig st
  | Slot.EqualServiceConfigForTesting => EqualServiceConfigForTesting st
  | Slot.GetCertificateProviderBuilder => GetCertificateProviderBuilder st
  | Slot.GetXDSHandshakeInfoForTesting => GetXDSHandshakeInfoForTesting st
  | Slot.GetServerCredentials => GetServerCredentials st
  | Slot.DrainServerTransports => DrainServerTransports st
  | Slot.AddExtraServerOptions => AddExtraServerOptions st
  | Slot.ClearExtraServerOptions => ClearExtraServerOptions st
  | Slot.AddExtraDialOptions => AddExtraDialOptions st
  | Slot.ClearExtraDialOptions => ClearExtraDialOptions st
  | Slot.NewXDSResolverWithConfigForTesting =>
      NewXDSResolverWithConfigForTesting st
  | Slot.RegisterRLSClusterSpecifierPluginForTesting =>
      RegisterRLSClusterSpecifierPluginForTesting st
  | Slot.UnregisterRLSClusterSpecifierPluginForTesting =>
      UnregisterRLSClusterSpecifierPluginForTesting st
  | Slot.RegisterRBACHTTPFilterForTesting =>
      RegisterRBACHTTPFilterForTesting st
  | Slot.UnregisterRBACHTTPFilterForTesting =>
      UnregisterRBACHTTPFilterForTesting st
  end.

(** The block whose variables hold what [f] gives for each name. *)
Definition block (f : forall s, slot_type s) : Vars := {|
  WithHealthCheckFunc := f Slot.WithHealthCheckFunc;
  HealthCheckFunc := f Slot.HealthCheckFunc;
  BalancerUnregister := f Slot.BalancerUnregister;
  KeepaliveMinPingTime := f Slot.KeepaliveMinPingTime;
  ParseServiceConfig := f Slot.ParseServiceConfig;
  EqualServiceConfigForTesting := f Slot.EqualServiceConfigForTesting;
  GetCertificateProviderBuilder := f Slot.GetCertificateProviderBuilder;
  GetXDSHandshakeInfoForTesting := f Slot.GetXDSHandshakeInfoForTesting;
  GetServerCredentials := f Slot.GetServerCredentials;
  DrainServerTransports := f Slot.DrainServerTransports;
  AddExtraServerOptions := f Slot.AddExtraServerOptions;
  ClearExtraServerOptions := f Slot.ClearExtraServerOptions;
  AddExtraDialOptions := f Slot.AddExtraDialOptions;
  ClearExtraDialOptions := f Slot.ClearExtraDialOptions;
  NewXDSResolverWithConfigForTesting :=
    f Slot.NewXDSResolverWithConfigForTesting;
  RegisterRLSClusterSpecifierPluginForTesting :=
    f Slot.RegisterRLSClusterSpecifierPluginForTesting;
  UnregisterRLSClusterSpecifierPluginForTesting :=
    f Slot.UnregisterRLSClusterSpecifierPluginForTesting;
  RegisterRBACHTTPFilterForTesting :=
    f Slot.RegisterRBACHTTPFilterForTesting;
  UnregisterRBACHTTPFilterForTesting :=
    f Slot.UnregisterRBACHTTPFilterForTesting
|}.

(** The zero value of a variable's type: what "empty" means for it. *)
Definition zero_value (s : Slot.name) : slot_type s := zero (decl_type s).

(** The block at process start: every variable declared without an
    initialiser holds the zero value of its type; the one declared
    with an initialiser, [KeepaliveMinPingTime = 10 * time.Second],
    holds that. *)
Definition init : Vars := {|
  WithHealthCheckFunc := None;
  HealthCheckFunc := None;
  BalancerUnregister := None;
  KeepaliveMinPingTime := (10 * time.Second)%Z;
  ParseServiceConfig := None;
  EqualServiceConfigForTesting := None;
  GetCertificateProviderBuilder := None;
  GetXDSHandshakeInfoForTesting := None;
  GetServerCredentials := None;
  DrainServerTransports := None;
  AddExtraServerOptions := None;
  ClearExtraServerOptions := None;
  AddExtraDialOptions := None;
  ClearExtraDialOptions := None;
  NewXDSResolverWithConfigForTesting := None;
  RegisterRLSClusterSpecifierPluginForTesting := None;
  UnregisterRLSClusterSpecifierPluginForTesting := None;
  RegisterRBACHTTPFilterForTesting := None;
  UnregisterRBACHTTPFilterForTesting := None
|}.

(** [internal.s = v]: the variable [s] is overwritten, the others keep
    what they hold. *)
Definition install (s : Slot.name) (v : slot_type s) (st : Vars) : Vars :=
  block (fun s' =>
           match Slot.eq_dec s s' with
           | left e => eq_rect s slot_type v s' e
           | right _ => lookup s' st
           end).

(** [internal.s = nil] (the zero value of the type of [s]). *)
Definition clear (s : Slot.name) (st : Vars) : Vars :=
  install s (zero_value s) st.

(** *** Sequences of assignments *)

(** An assignment to the variable [s]. *)
Inductive op (s : Slot.name) : Type :=
| Install (v : slot_type s)
| Clear.
Arguments Install {s} v.
Arguments Clear {s}.

Definition apply_op {s : Slot.name} (o : op s) (st : Vars) : Vars :=
  match o with
  | Install v => install s v st
  | Clear => clear s st
  end.

(** What an assignment writes. *)
Definition written {s : Slot.name} (o : op s) : slot_type s :=
  match o with
  | Install v => v
  | Clear => zero_value s
  end.

(** Assignments to one variable, performed left to right. *)
Definition run_ops {s : Slot.name} (ops : list (op s)) (st : Vars) : Vars :=
  fold_left (fun st' o => apply_op o st') ops st.

(** An assignment to some variable, and a program of them. *)
Record write : Type := { target : Slot.name; action : op target }.

Definition run_writes (ws : list write) (st : Vars) : Vars :=
  fold_left (fun st' w => apply_op (action w) st') ws st.

(** What the latest assignment to [s] in [ws] writes, if there is one. *)
Fixpoint last_written (s : Slot.name) (ws : list write)
  : option (slot_type s) :=
  match ws with
  | [] => None
  | w :: ws' =>
      match last_written s ws' with
      | Some v => Some v
      | None =>
          match Slot.eq_dec (target w) s with
          | left e => Some (eq_rect (target w) slot_type
                              (written (action w)) s e)
          | right _ => None
          end
      end
  end.

(** *** Uninstalled variables *)

(** The variable [s] is uninstalled in a block: the block is the one of
    process start (and [s] is declared without an initialiser) or the
    one a clear of [s] leaves, followed by assignments to other
    variables only. *)
Inductive uninstalled (s : Slot.name) : Vars -> Prop :=
| uninstalled_at_start :
    s <> Slot.KeepaliveMinPingTime -> uninstalled s init
| uninstalled_by_clear (st : Vars) :
    uninstalled s (clear s st)
| uninstalled_kept (s' : Slot.name) (o : op s') (st : Vars) :
    s' <> s -> uninstalled s st -> uninstalled s (apply_op o st).

(** *** Emptiness *)

Definition is_none {A : Type} (o : option A) : bool :=
  match o with
  | None => true
  | Some _ => false
  end.

(** The comparison of a value with the zero value of its type
    ([v == nil], [v == 0], ...), for the types that have one. *)
Fixpoint is_zero (t : GoType) : denote t -> bool :=
  match t as t0 return denote t0 -> bool with
  | TEmptyInterface => fun v => is_none v
  | TString => fun v => String.eqb v ""
  | TBool => fun v => negb v
  | TError => fun v => is_none v
  | TContext => fun v => is_none v
  | TConnState => fun v =>
      match v with
      | connectivity.Idle => true
      | _ => false
      end
  | TConfig => fun v => is_none v
  | TDuration => fun v => Z.eqb v 0
  | TExtern _ => fun v => is_none v
  | TPtr _ => fun v => is_none v
  | TSlice _ => fun v =>
      match v with
      | [] => true
      | _ :: _ => false
      end
  | TFunc _ _ => fun v => is_none v
  | TNamed _ u => is_zero u
  end.

(** The variable [s] is empty: it compares equal to the zero value. *)
Definition is_empty (s : Slot.name) (st : Vars) : bool :=
  is_zero (decl_type s) (lookup s st).

(** Modelled from the spec: the use sites of the variables are in the
    packages that import [internal], not in [internal.go].  The
    specification has the core read the variable at each use, treat an
    empty one as "feature absent" and skip the optional behaviour, and
    otherwise borrow the installed value for the call. *)
Inductive use (s : Slot.name) : Type :=
| Skip
| Use (v : slot_type s).
Arguments Skip {s}.
Arguments Use {s} v.

Definition core_use (s : Slot.name) (st : Vars) : use s :=
  if is_empty s st then Skip else Use (lookup s st).

(** *** Signatures *)

(** The variables declared with a function type, as the documentation
    of the registry enumerates them. *)
Definition func_typed_slots : list Slot.name :=
  [ Slot.HealthCheckFunc; Slot.BalancerUnregister;
    Slot.EqualServiceConfigForTesting;
    Slot.ClearExtraServerOptions; Slot.ClearExtraDialOptions;
    Slot.RegisterRLSClusterSpecifierPluginForTesting;
    Slot.UnregisterRLSClusterSpecifierPluginForTesting;
    Slot.RegisterRBACHTTPFilterForTesting;
    Slot.UnregisterRBACHTTPFilterForTesting ].

(** The assignment [internal.s = x] of an arbitrary interface value
    type-checks exactly when [s] is declared [interface{}]. *)
Definition of_any (s : Slot.name) (x : any) : option (slot_type s) :=
  match decl_type s as t return option (denote t) with
  | TEmptyInterface => Some x
  | _ => None
  end.

(** A value held by [s] conforms when it is nil or its dynamic type is
    the documented signature of [s]. *)
Definition conforms (s : Slot.name) (v : slot_type s) : Prop :=
  match dyn_type (decl_type s) v with
  | None => True
  | Some t => t = documented_sig s
  end.

End Registry.

Arguments Install {I s} v.
Arguments Clear {I s}.
Arguments Skip {I s}.
Arguments Use {I s} v.

(** ** The constants of package [internal] *)

Definition CredsBundleModeFallback : string := "fallback".
Definition CredsBundleModeBalancer : string := "balancer".
Definition CredsBundleModeBackendFromBalancer : string :=
  "backend-from-balancer".
Definition RLSLoadBalancingPolicyName : string := "rls_experimental".

(** ** The health-check session

    [internal.go] declares the type of the health-check function and
    documents what an implementation is expected to do: create a stream
    by calling [newStream], watch the health of [serviceName], report it
    by calling [setConnectivityState].  The implementation, the core
    that calls it, the stream and the context are in other packages;
    this module models them as the specification describes them. *)

Module health.

(** Modelled from the spec: the errors a session meets, which the
    specification classifies as cancellation (the two causes a cancelled
    context reports), failure of the stream or of its creation (here
    with a status code), and protocol violation. *)
Inductive SessionErr : Type :=
| Canceled
| DeadlineExceeded
| StreamError (code : nat)
| ProtocolViolation.

(** Modelled from the spec: how the stream ends once its messages are
    read: a clean end, a failure, or an unexpected message. *)
Inductive terminator : Type :=
| EndOfStream
| StreamFails (e : SessionErr)
| Unexpected.

(** The calls a session makes to its environment. *)
Inductive io : Type :=
| CallNewStream (service : string)
| CallRecv
| CallReport (s : connectivity.State) (e : option SessionErr).

Section Session.

(** The health-status messages and their translation to connectivity
    states are those of the health-checking protocol. *)
Variable Status : Type.
Variable translate : Status -> connectivity.State.
Variable AppConfig : Type.

(** Modelled from the spec: the environment of a session, which the
    package leaves to the core and the transport: the outcome
    of the n-th stream creation ([None]: a stream), the messages the
    stream will produce and how it ends, the context (alive for the
    given number of polls, then cancelled with the given cause;
    [None]: never cancelled), and the calls made so far. *)
Record World : Type := {
  dial : nat -> option SessionErr;
  inbox : list Status;
  ending : terminator;
  cancel : option (nat * SessionErr);
  trace : list io
}.

(** A call changes the world and returns, or does not return
    (a panic, or a loop that is out of fuel). *)
Definition Run (A : Type) : Type := World -> option (A * World).

#[export] Instance session_imports : Imports := {|
  Payload := nat;
  Ctx := unit;
  Config := AppConfig;
  Err := SessionErr;
  M := Run
|}.

Definition ret {A : Type} (a : A) : Run A := fun w => Some (a, w).

Definition bind {A B : Type} (c : Run A) (k : A -> Run B) : Run B :=
  fun w =>
    match c w with
    | Some (a, w') => k a w'
    | None => None
    end.

Definition panic {A : Type} : Run A := fun _ => None.

Notation "x <- c ;; k" := (bind c (fun x => k))
  (at level 61, c at next level, right associativity).
Notation "c ;;; k" := (bind c (fun _ => k))
  (at level 61, right associativity).

(** Calling a function value: a nil function panics. *)
Definition call1 {A B : Type} (f : option (A -> Run B)) (a : A) : Run B :=
  match f with
  | Some g => g a
  | None => panic
  end.

Definition call2 {A B C : Type} (f : option (A -> B -> Run C))
           (a : A) (b : B) : Run C :=
  match f with
  | Some g => g a b
  | None => panic
  end.

(** *** The environment's side *)

Definition log (ev : io) (w : World) : World := {|
  dial := dial w;
  inbox := inbox w;
  ending := ending w;
  cancel := cancel w;
  trace := trace w ++ [ev]
|}.

Definition is_new_stream (ev : io) : bool :=
  match ev with
  | CallNewStream _ => true
  | _ => false
  end.

Definition is_recv (ev : io) : bool :=
  match ev with
  | CallRecv => true
  | _ => false
  end.

(** The numbers of stream creations and of reads in a trace, and its
    state reports in order. *)
Definition creations (t : list io) : nat :=
  List.length (filter is_new_stream t).

Definition reads (t : list io) : nat :=
  List.length (filter is_recv t).

Fixpoint reports (t : list io)
  : list (connectivity.State * option SessionErr) :=
  match t with
  | [] => []
  | CallReport s e :: t' => (s, e) :: reports t'
  | _ :: t' => reports t'
  end.

(** Modelled from the spec: [ctx.Err()] of the cancellable context, nil
    while the context is alive and the cause once it is cancelled. *)
Definition ctx_err (ctx : option unit) : Run (option SessionErr) :=
  match ctx with
  | None => panic
  | Some _ =>
      fun w =>
        match cancel w with
        | None => Some (None, w)
        | Some (O, e) => Some (Some e, w)
        | Some (S n, e) =>
            Some (None, {| dial := dial w;
                           inbox := inbox w;
                           ending := ending w;
                           cancel := Some (n, e);
                           trace := trace w |})
        end
  end.

(** Modelled from the spec: the stream-creation function the core
    supplies, which gives a stream handle and a nil error, or a nil
    handle and the error. *)
Definition core_newStream (service : string)
  : Run (@any session_imports * option SessionErr) :=
  fun w =>
    let n := creations (trace w) in
    let w' := log (CallNewStream service) w in
    match dial w n with
    | Some e => Some ((None, Some e), w')
    | None =>
        Some ((Some {| dynType := TExtern "grpc.ClientStream";
                       data := n |}, None), w')
    end.

(** Modelled from the spec: the state-reporting function the core
    supplies; the report reaches the load-balancing layer in the order
    of the calls. *)
Definition core_setConnectivityState
           (s : connectivity.State) (e : option SessionErr) : Run unit :=
  fun w => Some (tt, log (CallReport s e) w).

(** Modelled from the spec: what a read on the stream gives. *)
Inductive recv_result : Type :=
| GotStatus (m : Status)
| GotEOF
| GotError (e : SessionErr)
| GotUnexpected.

(** Modelled from the spec: a read takes the next message of the
    stream, or meets its end. *)
Definition recv_msg (h : nat) : Run recv_result :=
  fun w =>
    let w' := log CallRecv w in
    match inbox w with
    | m :: rest =>
        Some (GotStatus m, {| dial := dial w';
                              inbox := rest;
                              ending := ending w';
                              cancel := cancel w';
                              trace := trace w' |})
    | [] =>
        Some (match ending w with
              | EndOfStream => GotEOF
              | StreamFails e => GotError e
              | Unexpected => GotUnexpected
              end, w')
    end.

(** The handle of a created stream; a nil handle panics. *)
Definition stream_of (raw : @any session_imports) : Run nat :=
  match raw with
  | Some h => ret (data h)
  | None => panic
  end.

(** *** The session *)

(** Modelled from the spec: no implementation of [HealthChecker] is
    part of [internal.go].  The loop of the session, as the
    specification words it: observe the context and end with its
    error, without a further report, when it is cancelled; otherwise
    read; report the state a health-status message translates to and
    go on; on a stream error report TRANSIENT_FAILURE with the error
    and return it; treat an unexpected message as a stream error; on
    a clean end return no error. *)
Fixpoint watch (fuel : nat) (ctx : option unit) (h : nat)
         (setConnectivityState :
            option (connectivity.State -> option SessionErr -> Run unit))
  : Run (option SessionErr) :=
  match fuel with
  | O => panic
  | S fuel' =>
      cerr <- ctx_err ctx ;;
      match cerr with
      | Some e => ret (Some e)
      | None =>
          r <- recv_msg h ;;
          match r with
          | GotStatus m =>
              call2 setConnectivityState (translate m) None ;;;
              watch fuel' ctx h setConnectivityState
          | GotEOF => ret None
          | GotError e =>
              call2 setConnectivityState
                    connectivity.TransientFailure (Some e) ;;;
              ret (Some e)
          | GotUnexpected =>
              call2 setConnectivityState
                    connectivity.TransientFailure
                    (Some ProtocolViolation) ;;;
              ret (Some ProtocolViolation)
          end
      end
  end.

(** Modelled from the spec: the session opens one stream for the
    service name; a failure to create it is reported as
    TRANSIENT_FAILURE and returned, without a retry; otherwise the
    session watches the stream.  [fuel] bounds the iterations of
    the loop. *)
Definition health_check_session (fuel : nat)
  : @HealthChecker session_imports :=
  Some (fun ctx newStream setConnectivityState serviceName =>
          res <- call1 newStream serviceName ;;
          match snd res with
          | Some e =>
              call2 setConnectivityState
                    connectivity.TransientFailure (Some e) ;;;
              ret (Some e)
          | None =>
              h <- stream_of (fst res) ;;
              watch fuel ctx h setConnectivityState
          end).

(** Modelled from the spec: the core's use of the health-check
    variable is not part of [internal.go].  The core reads the
    variable; an empty one means no health checking (no call, no
    error); an installed one is called with the context, the core's
    two functions and the service name. *)
Definition core_run_health_check (st : @Vars session_imports)
           (ctx : option unit) (serviceName : string)
  : Run (option SessionErr) :=
  match HealthCheckFunc st with
  | None => ret None
  | Some hc =>
      hc ctx (Some core_newStream) (Some core_setConnectivityState)
         serviceName
  end.

(** The call [internal.HealthCheckFunc(ctx, newStream,
    setConnectivityState, serviceName)] of the variable's value as it
    is, with the core's two functions: calling a nil function value
    panics. *)
Definition call_health_check (hc : @HealthChecker session_imports)
           (ctx : option unit) (serviceName : string)
  : Run (option SessionErr) :=
  match hc with
  | Some f =>
      f ctx (Some core_newStream) (Some core_setConnectivityState)
        serviceName
  | None => panic
  end.

(** *** How a session ends, read off its environment *)

(** Modelled from the spec: the ends of a session the specification
    tells apart. *)
Inductive session_end : Type :=
| EndedClean
| EndedCreationFailed (e : SessionErr)
| EndedCancelled (cause : SessionErr)
| EndedStreamError (e : SessionErr)
| EndedProtocolViolation.

(** The cause, when the context is cancelled before the stream has
    ended. *)
Definition cancelled_early (w : World) : option SessionErr :=
  match cancel w with
  | Some (k, e) => if Nat.leb k (List.length (inbox w)) then Some e else None
  | None => None
  end.

(** The messages the stream produces before the session ends. *)
Definition delivered (w : World) : list Status :=
  match cancel w with
  | Some (k, _) => firstn k (inbox w)
  | None => inbox w
  end.

(** How the watch of a created stream ends. *)
Definition stream_end (w : World) : session_end :=
  match cancelled_early w with
  | Some e => EndedCancelled e
  | None =>
      match ending w with
      | EndOfStream => EndedClean
      | StreamFails e => EndedStreamError e
      | Unexpected => EndedProtocolViolation
      end
  end.

Definition how_ended (w : World) : session_end :=
  match dial w (creations (trace w)) with
  | Some e => EndedCreationFailed e
  | None => stream_end w
  end.

(** Modelled from the spec: the abnormal ends are the failure of the
    stream or of its creation, the cancellation and the protocol
    violation; the clean end of the stream is the normal one. *)
Definition abnormal (x : session_end) : bool :=
  match x with
  | EndedClean => false
  | _ => true
  end.

(** The error an end comes with. *)
Definition end_error (x : session_end) : option SessionErr :=
  match x with
  | EndedClean => None
  | EndedCreationFailed e => Some e
  | EndedCancelled e => Some e
  | EndedStreamError e => Some e
  | EndedProtocolViolation => Some ProtocolViolation
  end.

(** The reads a watch performs: one per delivered message, and the
    one that meets the end of the stream unless the context is
    cancelled first. *)
Definition reads_expected (w : World) : nat :=
  List.length (delivered w) +
  match cancelled_early w with
  | Some _ => 0
  | None => 1
  end.

(** The report that accompanies a failure of the stream. *)
Definition failure_report (x : session_end)
  : list (connectivity.State * option SessionErr) :=
  match x with
  | EndedCreationFailed e
  | EndedStreamError e => [(connectivity.TransientFailure, Some e)]
  | EndedProtocolViolation =>
      [(connectivity.TransientFailure, Some ProtocolViolation)]
  | EndedClean | EndedCancelled _ => []
  end.

(** What the calls of a watch amount to. *)
Record watch_calls (w : World) (evs : list io) : Prop := {
  wc_reports :
    reports evs =
    map (fun m => (translate m, None)) (delivered w) ++
    failure_report (stream_end w);
  wc_creations : creations evs = 0;
  wc_reads : reads evs = reads_expected w
}.

(** What the calls of a whole session amount to. *)
Record session_calls (w : World) (evs : list io) : Prop := {
  sc_creations : creations evs = 1;
  sc_reports :
    reports evs =
    match dial w (creations (trace w)) with
    | Some _ => []
    | None => map (fun m => (translate m, None)) (delivered w)
    end ++ failure_report (how_ended w);
  sc_reads :
    reads evs =
    match dial w (creations (trace w)) with
    | Some _ => 0
    | None => reads_expected w
    end
}.

End Session.

End health.

(** ** A simulated stream

    The stream of the scenario: its messages are connectivity states,
    translated by the identity. *)

Module scenario.

Definition imports : Imports := health.session_imports connectivity.State unit.

Definition translate (s : connectivity.State) : connectivity.State := s.

(** The stream emits READY, TRANSIENT_FAILURE, READY and ends as [fin];
    every stream creation succeeds; the context is never cancelled. *)
Definition world (fin : health.terminator) : health.World connectivity.State := {|
  health.dial := fun _ => None;
  health.inbox := [connectivity.Ready; connectivity.TransientFailure;
                   connectivity.Ready];
  health.ending := fin;
  health.cancel := None;
  health.trace := []
|}.

(** The same with the context cancelled at its third poll. *)
Definition world_cancelled : health.World connectivity.State := {|
  health.dial := fun _ => None;
  health.inbox := [connectivity.Ready; connectivity.TransientFailure;
                   connectivity.Ready];
  health.ending := health.EndOfStream;
  health.cancel := Some (2, health.Canceled);
  health.trace := []
|}.

(** No stream can be created. *)
Definition world_unreachable : health.World connectivity.State := {|
  health.dial := fun _ => Some (health.StreamError 14);
  health.inbox := [connectivity.Ready];
  health.ending := health.EndOfStream;
  health.cancel := None;
  health.trace := []
|}.

(** A stub health-check function: it reports CONNECTING, then READY,
    and ends cleanly. *)
Definition stub : @HealthChecker imports :=
  Some (fun _ _ setConnectivityState _ =>
          health.bind
            (health.call2 setConnectivityState connectivity.Connecting None)
            (fun _ =>
               health.bind
                 (health.call2 setConnectivityState connectivity.Ready None)
                 (fun _ => health.ret None))).

(** The block after the health package has installed its session. *)
Definition installed : @Vars imports :=
  @install imports Slot.HealthCheckFunc
           (health.health_check_session translate unit 8) (@init imports).

(** Three assignments, each to a variable of its own. *)
Definition write_health : @write imports :=
  @Build_write imports Slot.HealthCheckFunc
               (@Install imports Slot.HealthCheckFunc stub).

Definition write_unregister : @write imports :=
  @Build_write imports Slot.BalancerUnregister
               (@Clear imports Slot.BalancerUnregister).

Definition write_keepalive : @write imports :=
  @Build_write imports Slot.KeepaliveMinPingTime
               (@Install imports Slot.KeepaliveMinPingTime 1%Z).

End scenario.

(** * Proof automation *)

(** Closes a run that ends without a further iteration, given its calls. *)
Ltac watch_ends evs :=
  eexists; exists evs;
  split; [reflexivity |];
  split; [reflexivity |];
  split; [cbn; rewrite <- ?app_assoc, ?app_nil_r; reflexivity |];
  split; reflexivity.

(** * Properties of the registry *)

Section RegistryFacts.

Context {I : Imports}.

Lemma lookup_block (f : forall s, slot_type s) (s : Slot.name) :
  lookup s (block f) = f s.
Proof. destruct s; reflexivity. Qed.

Lemma eq_dec_same (s : Slot.name) : Slot.eq_dec s s = left eq_refl.
Proof. destruct s; reflexivity. Qed.

Lemma lookup_install_same (s : Slot.name) (v : slot_type s) (st : Vars) :
  lookup s (install s v st) = v.
Proof.
  unfold install. rewrite lookup_block, eq_dec_same. reflexivity.
Qed.

Lemma lookup_install_other (s s' : Slot.name) (v : slot_type s) (st : Vars) :
  s <> s' -> lookup s' (install s v st) = lookup s' st.
Proof.
  intros Hne. unfold install. rewrite lookup_block.
  destruct (Slot.eq_dec s s') as [e | _]; [contradiction | reflexivity].
Qed.

Lemma lookup_apply_same (s : Slot.name) (o : op s) (st : Vars) :
  lookup s (apply_op o st) = written o.
Proof. destruct o; simpl; apply lookup_install_same. Qed.

Lemma lookup_apply_other (s s' : Slot.name) (o : op s) (st : Vars) :
  s <> s' -> lookup s' (apply_op o st) = lookup s' st.
Proof.
  intros Hne. destruct o; simpl; now apply lookup_install_other.
Qed.

(** A block is the block of what [lookup] reads from it. *)
Lemma block_lookup (st : Vars) : block (fun s => lookup s st) = st.
Proof. destruct st; reflexivity. Qed.

(** [internal.HealthCheckFunc = v], written out: one field changes. *)
Lemma install_HealthCheckFunc (v : HealthChecker) (st : Vars) :
  install Slot.HealthCheckFunc v st =
  {| WithHealthCheckFunc := WithHealthCheckFunc st;
     HealthCheckFunc := v;
     BalancerUnregister := BalancerUnregister st;
     KeepaliveMinPingTime := KeepaliveMinPingTime st;
     ParseServiceConfig := ParseServiceConfig st;
     EqualServiceConfigForTesting := EqualServiceConfigForTesting st;
     GetCertificateProviderBuilder := GetCertificateProviderBuilder st;
     GetXDSHandshakeInfoForTesting := GetXDSHandshakeInfoForTesting st;
     GetServerCredentials := GetServerCredentials st;
     DrainServerTransports := DrainServerTransports st;
     AddExtraServerOptions := AddExtraServerOptions st;
     ClearExtraServerOptions := ClearExtraServerOptions st;
     AddExtraDialOptions := AddExtraDialOptions st;
     ClearExtraDialOptions := ClearExtraDialOptions st;
     NewXDSResolverWithConfigForTesting :=
       NewXDSResolverWithConfigForTesting st;
     RegisterRLSClusterSpecifierPluginForTesting :=
       RegisterRLSClusterSpecifierPluginForTesting st;
     UnregisterRLSClusterSpecifierPluginForTesting :=
       UnregisterRLSClusterSpecifierPluginForTesting st;
     RegisterRBACHTTPFilterForTesting := RegisterRBACHTTPFilterForTesting st;
     UnregisterRBACHTTPFilterForTesting :=
       UnregisterRBACHTTPFilterForTesting st |}.
Proof. reflexivity. Qed.

(** C1.  Reading a variable right after assigning [v] to it gives [v],
    and reading it right after assigning the zero value gives the zero
    value (nil for the interface and function variables). *)
Theorem lookup_after_install_and_after_clear
        (s : Slot.name) (v : slot_type s) (st : Vars) :
  lookup s (install s v st) = v /\
  lookup s (clear s st) = zero_value s.
Proof.
  split; [| unfold clear]; apply lookup_install_same.
Qed.

(** C9.  An assignment to one variable, of a value or of the zero
    value, leaves what every other variable holds unchanged. *)
Theorem install_and_clear_frame
        (s1 s2 : Slot.name) (v : slot_type s1) (st : Vars) :
  s1 <> s2 ->
  lookup s2 (install s1 v st) = lookup s2 st /\
  lookup s2 (clear s1 st) = lookup s2 st.
Proof.
  intros Hne. split; [| unfold clear]; now apply lookup_install_other.
Qed.

Lemma run_ops_snoc (s : Slot.name) (ops : list (op s)) (o : op s) (st : Vars) :
  run_ops (ops ++ [o]) st = apply_op o (run_ops ops st).
Proof. unfold run_ops. now rewrite fold_left_app. Qed.

(** C4.  After any sequence of assignments to a variable, the variable
    holds what the last assignment of the sequence wrote: the value of
    the last install, or the zero value when a clear came last.
    Nothing of the earlier assignments or of the earlier content
    remains. *)
Theorem most_recent_assignment_wins
        (s : Slot.name) (ops : list (op s)) (o : op s) (st : Vars) :
  lookup s (run_ops (ops ++ [o]) st) = written o.
Proof.
  rewrite run_ops_snoc. apply lookup_apply_same.
Qed.

(** The same for a program that assigns to several variables: each
    variable ends with what the latest assignment to it wrote, or with
    what it held before when the program never assigns to it. *)
Lemma most_recent_write_wins (s : Slot.name) (ws : list write) (st : Vars) :
  lookup s (run_writes ws st) =
  match last_written s ws with
  | Some v => v
  | None => lookup s st
  end.
Proof.
  revert st. induction ws as [| w ws IH]; intros st; [reflexivity |].
  change (run_writes (w :: ws) st)
    with (run_writes ws (apply_op (action w) st)).
  rewrite IH. simpl.
  destruct (last_written s ws) as [v |]; [reflexivity |].
  destruct w as [t a]; simpl.
  destruct (Slot.eq_dec t s) as [e | n].
  - subst t. simpl. apply lookup_apply_same.
  - now apply lookup_apply_other.
Qed.

(** Two blocks that read the same at every variable are the same. *)
Lemma vars_ext (a b : Vars) :
  (forall s, lookup s a = lookup s b) -> a = b.
Proof.
  intros H. rewrite <- (block_lookup a), <- (block_lookup b).
  unfold block.
  now rewrite (H Slot.WithHealthCheckFunc), (H Slot.HealthCheckFunc),
    (H Slot.BalancerUnregister), (H Slot.KeepaliveMinPingTime),
    (H Slot.ParseServiceConfig), (H Slot.EqualServiceConfigForTesting),
    (H Slot.GetCertificateProviderBuilder),
    (H Slot.GetXDSHandshakeInfoForTesting), (H Slot.GetServerCredentials),
    (H Slot.DrainServerTransports), (H Slot.AddExtraServerOptions),
    (H Slot.ClearExtraServerOptions), (H Slot.AddExtraDialOptions),
    (H Slot.ClearExtraDialOptions),
    (H Slot.NewXDSResolverWithConfigForTesting),
    (H Slot.RegisterRLSClusterSpecifierPluginForTesting),
    (H Slot.UnregisterRLSClusterSpecifierPluginForTesting),
    (H Slot.RegisterRBACHTTPFilterForTesting),
    (H Slot.UnregisterRBACHTTPFilterForTesting).
Qed.

(** A second assignment to a variable overwrites the first: the block
    is the one the second assignment alone gives. *)
Lemma install_overwrites (s : Slot.name) (v v' : slot_type s) (st : Vars) :
  install s v (install s v' st) = install s v st.
Proof.
  apply vars_ext. intros s'.
  destruct (Slot.eq_dec s s') as [e | n].
  - subst s'. now rewrite !lookup_install_same.
  - now rewrite !lookup_install_other.
Qed.

(** Assigning to a variable what it holds changes nothing. *)
Lemma install_lookup_same (s : Slot.name) (st : Vars) :
  install s (lookup s st) st = st.
Proof.
  apply vars_ext. intros s'.
  destruct (Slot.eq_dec s s') as [e | n].
  - subst s'. apply lookup_install_same.
  - now apply lookup_install_other.
Qed.

(** Assignments to two different variables commute. *)
Lemma install_commutes (s1 s2 : Slot.name) (v1 : slot_type s1)
      (v2 : slot_type s2) (st : Vars) :
  s1 <> s2 ->
  install s1 v1 (install s2 v2 st) = install s2 v2 (install s1 v1 st).
Proof.
  intros Hne. apply vars_ext. intros s.
  destruct (Slot.eq_dec s1 s) as [e1 | n1];
    destruct (Slot.eq_dec s2 s) as [e2 | n2]; subst;
    try (now contradiction Hne);
    repeat first [ rewrite lookup_install_same
                 | rewrite lookup_install_other by assumption
                 | rewrite lookup_install_other by congruence ];
    reflexivity.
Qed.

Lemma init_lookup (s : Slot.name) :
  s <> Slot.KeepaliveMinPingTime -> lookup s init = zero_value s.
Proof.
  intros Hne. destruct s; try reflexivity. now contradiction Hne.
Qed.

(** C3, amended.  At process start every variable other than
    [KeepaliveMinPingTime] holds the zero value of its type;
    [KeepaliveMinPingTime] is declared with an initialiser and holds
    ten seconds. *)
Theorem created_empty_except_keepalive (s : Slot.name) :
  s <> Slot.KeepaliveMinPingTime ->
  lookup s init = zero_value s /\
  lookup Slot.KeepaliveMinPingTime init = (10 * time.Second)%Z /\
  lookup Slot.KeepaliveMinPingTime init = 10000000000%Z.
Proof.
  intros Hne. split; [now apply init_lookup |]. split; reflexivity.
Qed.

Lemma is_zero_sound (t : GoType) (v : denote t) :
  is_zero t v = true -> v = zero t.
Proof.
  induction t; simpl in *; intros H;
    try (destruct v; [discriminate H | reflexivity]).
  - now apply String.eqb_eq.
  - destruct v; [reflexivity | discriminate H ..].
  - now apply Z.eqb_eq.
  - destruct v; [reflexivity | discriminate H].
  - now apply IHt.
Qed.

Lemma is_zero_complete (t : GoType) : is_zero t (zero t) = true.
Proof. induction t; simpl; auto. Qed.

(** A variable that tests empty holds the zero value of its type, and
    the core, which tests the value it read, skips. *)
Lemma empty_slot_read_and_skipped (s : Slot.name) (st : Vars) :
  is_empty s st = true ->
  lookup s st = zero_value s /\ core_use s st = Skip.
Proof.
  intros H. split.
  - now apply is_zero_sound.
  - unfold core_use. now rewrite H.
Qed.

(** An installed (non-zero) value is the one the core uses. *)
Lemma installed_slot_used (s : Slot.name) (st : Vars) :
  is_empty s st = false -> core_use s st = Use (lookup s st).
Proof. intros H. unfold core_use. now rewrite H. Qed.

(** An uninstalled variable holds the zero value of its type: nothing
    was assigned to it since process start or since its clear. *)
Lemma uninstalled_lookup (s : Slot.name) (st : Vars) :
  uninstalled s st -> lookup s st = zero_value s.
Proof.
  induction 1 as [Hne | st | s' o st Hne _ IH].
  - now apply init_lookup.
  - unfold clear. apply lookup_install_same.
  - rewrite lookup_apply_other by assumption. exact IH.
Qed.

Lemma uninstalled_is_empty (s : Slot.name) (st : Vars) :
  uninstalled s st -> is_empty s st = true.
Proof.
  intros H. unfold is_empty. rewrite (uninstalled_lookup H).
  apply is_zero_complete.
Qed.

Lemma cleared_is_empty (s : Slot.name) (st : Vars) :
  is_empty s (clear s st) = true.
Proof.
  unfold is_empty, clear. rewrite lookup_install_same.
  apply is_zero_complete.
Qed.

(** *** Saving and restoring, and the order of initialisation *)

Lemma run_ops_other (s s' : Slot.name) (ops : list (op s)) (st : Vars) :
  s <> s' -> lookup s' (run_ops ops st) = lookup s' st.
Proof.
  intros Hne. revert st.
  induction ops as [| o ops IH]; intros st; [reflexivity |].
  change (run_ops (o :: ops) st) with (run_ops ops (apply_op o st)).
  rewrite IH. now apply lookup_apply_other.
Qed.

(** The override pattern of the tests ([old := internal.s], any number
    of assignments to [s], [internal.s = old]): the whole block is back
    to what it was. *)
Lemma restore_after_overrides
      (s : Slot.name) (ops : list (op s)) (st : Vars) :
  install s (lookup s st) (run_ops ops st) = st.
Proof.
  apply vars_ext. intros s'.
  destruct (Slot.eq_dec s s') as [e | n].
  - subst s'. apply lookup_install_same.
  - rewrite lookup_install_other by assumption.
    now apply run_ops_other.
Qed.

(** A program leaves alone the variables it never assigns to. *)
Lemma run_writes_frame (s : Slot.name) (ws : list write) (st : Vars) :
  (forall w, In w ws -> target w <> s) ->
  lookup s (run_writes ws st) = lookup s st.
Proof.
  revert st. induction ws as [| w ws IH]; intros st H; [reflexivity |].
  change (run_writes (w :: ws) st)
    with (run_writes ws (apply_op (action w) st)).
  rewrite IH by (intros w' Hw'; apply H; now right).
  apply lookup_apply_other. apply H. now left.
Qed.

Lemma apply_op_swap (s1 s2 : Slot.name) (o1 : op s1) (o2 : op s2) (st : Vars) :
  s1 <> s2 ->
  apply_op o1 (apply_op o2 st) = apply_op o2 (apply_op o1 st).
Proof.
  intros Hne. apply vars_ext. intros s.
  destruct (Slot.eq_dec s1 s) as [e1 | n1];
    destruct (Slot.eq_dec s2 s) as [e2 | n2]; subst;
    try (now contradiction Hne);
    repeat first [ rewrite lookup_apply_same
                 | rewrite lookup_apply_other by assumption
                 | rewrite lookup_apply_other by congruence ];
    reflexivity.
Qed.

(** When every assignment of a program goes to a variable of its own,
    the order of the assignments does not matter: the packages that
    install their variables at initialisation may be initialised in any
    order. *)
Lemma run_writes_any_order (ws ws' : list write) :
  Permutation ws ws' ->
  NoDup (map target ws) ->
  forall st : Vars, run_writes ws st = run_writes ws' st.
Proof.
  induction 1 as [| w l l' Hp IH | x y l | l l' l'' Hp1 IH1 Hp2 IH2];
    intros Hnd st.
  - reflexivity.
  - change (run_writes (w :: l) st)
      with (run_writes l (apply_op (action w) st)).
    change (run_writes (w :: l') st)
      with (run_writes l' (apply_op (action w) st)).
    apply IH. now inversion Hnd.
  - change (run_writes (y :: x :: l) st)
      with (run_writes l (apply_op (action x) (apply_op (action y) st))).
    change (run_writes (x :: y :: l) st)
      with (run_writes l (apply_op (action y) (apply_op (action x) st))).
    rewrite (@apply_op_swap (target x) (target y)); [reflexivity |].
    simpl in Hnd. inversion Hnd as [| ? ? Hnotin _]; subst.
    intros Heq. apply Hnotin. left. now symmetry.
  - rewrite IH1 by assumption. apply IH2.
    apply (Permutation_NoDup (Permutation_map target Hp1) Hnd).
Qed.

End RegistryFacts.

(** * Properties of the health-check session *)

Section SessionFacts.

Import health.

Variable Status : Type.
Variable translate : Status -> connectivity.State.
Variable AppConfig : Type.

Local Abbreviation World := (World Status).
Local Abbreviation session := (health_check_session translate AppConfig).
Local Abbreviation set_state := (Some (@core_setConnectivityState Status)).
Local Abbreviation new_stream := (Some (@core_newStream Status AppConfig)).

Lemma reports_app (t1 t2 : list io) :
  reports (t1 ++ t2) = reports t1 ++ reports t2.
Proof.
  induction t1 as [| ev t1 IH]; [reflexivity |].
  destruct ev; simpl; now rewrite IH.
Qed.

Lemma creations_app (t1 t2 : list io) :
  creations (t1 ++ t2) = creations t1 + creations t2.
Proof.
  unfold creations. now rewrite filter_app, length_app.
Qed.

Lemma reads_app (t1 t2 : list io) :
  reads (t1 ++ t2) = reads t1 + reads t2.
Proof.
  unfold reads. now rewrite filter_app, length_app.
Qed.

(** The loop, run with more fuel than the stream has messages, returns
    the error of the way the stream ends, after the calls above. *)
Lemma watch_returns (msgs : list Status) :
  forall (fuel h : nat) (d : nat -> option SessionErr) (fin : terminator)
         (c : option (nat * SessionErr)) (t : list io),
    List.length msgs < fuel ->
    let w := Build_World d msgs fin c t in
    exists (w' : World) (evs : list io),
      watch translate fuel (Some tt) h set_state w =
        Some (end_error (stream_end w), w') /\
      dial w' = d /\
      trace w' = t ++ evs /\
      watch_calls translate w evs.
Proof.
  induction msgs as [| m rest IH]; intros fuel h d fin c t Hfuel w;
    (destruct fuel as [| fuel]; [inversion Hfuel |]); subst w.
  - (* the stream has no message left *)
    destruct c as [[[| k] e] |].
    + watch_ends (@nil io).
    + destruct fin as [| e0 |].
      * watch_ends [CallRecv].
      * watch_ends [CallRecv;
                    CallReport connectivity.TransientFailure (Some e0)].
      * watch_ends [CallRecv;
                    CallReport connectivity.TransientFailure
                               (Some ProtocolViolation)].
    + destruct fin as [| e0 |].
      * watch_ends [CallRecv].
      * watch_ends [CallRecv;
                    CallReport connectivity.TransientFailure (Some e0)].
      * watch_ends [CallRecv;
                    CallReport connectivity.TransientFailure
                               (Some ProtocolViolation)].
  - (* the stream has the message [m] next *)
    assert (Hrest : List.length rest < fuel) by (simpl in Hfuel; lia).
    destruct c as [[[| k] e] |].
    + watch_ends (@nil io).
    + destruct (IH fuel h d fin (Some (k, e))
                   ((t ++ [CallRecv]) ++ [CallReport (translate m) None])
                   Hrest)
        as (w' & evs & Hrun & Hd & Ht & [Hr Hc Hn]).
      exists w', ([CallRecv; CallReport (translate m) None] ++ evs).
      split; [exact Hrun |]. split; [exact Hd |].
      split; [rewrite Ht; now rewrite <- !app_assoc |].
      split.
      * rewrite reports_app, Hr. reflexivity.
      * rewrite creations_app, Hc. reflexivity.
      * rewrite reads_app, Hn. reflexivity.
    + destruct (IH fuel h d fin None
                   ((t ++ [CallRecv]) ++ [CallReport (translate m) None])
                   Hrest)
        as (w' & evs & Hrun & Hd & Ht & [Hr Hc Hn]).
      exists w', ([CallRecv; CallReport (translate m) None] ++ evs).
      split; [exact Hrun |]. split; [exact Hd |].
      split; [rewrite Ht; now rewrite <- !app_assoc |].
      split.
      * rewrite reports_app, Hr. reflexivity.
      * rewrite creations_app, Hc. reflexivity.
      * rewrite reads_app, Hn. reflexivity.
Qed.

Lemma session_installed (fuel : nat) (st : Vars) :
  HealthCheckFunc (install Slot.HealthCheckFunc (session fuel) st) =
  session fuel.
Proof.
  exact (lookup_install_same Slot.HealthCheckFunc (session fuel) st).
Qed.

(** The installed session, called by the core with more fuel than the
    stream has messages, returns the error of the way it ends. *)
Lemma session_returns (fuel : nat) (st : Vars) (w : World) (name : string) :
  List.length (inbox w) < fuel ->
  exists (w' : World) (evs : list io),
    core_run_health_check
      (install Slot.HealthCheckFunc (session fuel) st) (Some tt) name w =
      Some (end_error (how_ended w), w') /\
    trace w' = trace w ++ evs /\
    session_calls translate w evs.
Proof.
  intros Hfuel. destruct w as [d msgs fin c t]. simpl in Hfuel.
  unfold core_run_health_check. rewrite session_installed.
  unfold how_ended.
  cbn [health_check_session call1 bind core_newStream dial trace log].
  unfold bind at 1, core_newStream. cbn [dial trace].
  destruct (d (creations t)) as [e |] eqn:Hd.
  - eexists. exists [CallNewStream name;
                     CallReport connectivity.TransientFailure (Some e)].
    split; [reflexivity |].
    split; [cbn; now rewrite <- app_assoc |].
    split; unfold how_ended; cbn [dial trace]; rewrite ?Hd; reflexivity.
  - destruct (@watch_returns msgs fuel (creations t) d fin c
                             (t ++ [CallNewStream name]) Hfuel)
      as (w' & evs & Hrun & _ & Ht & [Hr Hc Hn]).
    exists w', (CallNewStream name :: evs).
    split; [exact Hrun |].
    split; [rewrite Ht; now rewrite <- app_assoc |].
    split; unfold how_ended; cbn [dial trace]; rewrite ?Hd.
    + change (CallNewStream name :: evs) with ([CallNewStream name] ++ evs).
      rewrite creations_app, Hc. reflexivity.
    + exact Hr.
    + change (CallNewStream name :: evs) with ([CallNewStream name] ++ evs).
      rewrite reads_app, Hn. reflexivity.
Qed.

(** C2.  The installed health-check function, run by the core, returns;
    the error it returns is non-nil exactly when the session ended
    abnormally (the stream or its creation failed, the context was
    cancelled, the protocol was violated), and nil on a clean end of the
    stream. *)
Theorem session_error_iff_abnormal
        (fuel : nat) (st : Vars) (w : World) (name : string) :
  List.length (inbox w) < fuel ->
  exists (err : option SessionErr) (w' : World),
    core_run_health_check
      (install Slot.HealthCheckFunc (session fuel) st) (Some tt) name w =
      Some (err, w') /\
    (err <> None <-> abnormal (how_ended w) = true) /\
    (how_ended w = EndedClean -> err = None).
Proof.
  intros Hfuel.
  destruct (session_returns st w name Hfuel) as (w' & evs & Hrun & _ & _).
  exists (end_error (how_ended w)), w'.
  split; [exact Hrun |].
  destruct (how_ended w); simpl; repeat split;
    congruence || (intros; discriminate) || auto.
Qed.

(** C5.  When the stream is created, the states the session reports are
    those of the messages the stream delivered, translated, in the
    order of delivery, followed by the report of the stream's failure
    when it ends with one. *)
Theorem reports_in_stream_order
        (fuel : nat) (st : Vars) (w : World) (name : string) :
  List.length (inbox w) < fuel ->
  dial w (creations (trace w)) = None ->
  exists (err : option SessionErr) (w' : World) (evs : list io),
    core_run_health_check
      (install Slot.HealthCheckFunc (session fuel) st) (Some tt) name w =
      Some (err, w') /\
    trace w' = trace w ++ evs /\
    map fst (reports evs) =
    map translate (delivered w) ++ map fst (failure_report (how_ended w)).
Proof.
  intros Hfuel Hdial.
  destruct (session_returns st w name Hfuel)
    as (w' & evs & Hrun & Ht & [_ Hr _]).
  exists (end_error (how_ended w)), w', evs.
  split; [exact Hrun |]. split; [exact Ht |].
  rewrite Hr, Hdial, map_app, map_map. reflexivity.
Qed.

(** C6.  When the first stream creation fails, the session makes two
    calls and returns the error: the creation, and one report of
    TRANSIENT_FAILURE with the error.  It reads nothing and creates no
    second stream. *)
Theorem creation_failure_ends_session
        (fuel : nat) (st : Vars) (w : World) (name : string)
        (e : SessionErr) :
  dial w (creations (trace w)) = Some e ->
  exists (w' : World) (evs : list io),
    core_run_health_check
      (install Slot.HealthCheckFunc (session fuel) st) (Some tt) name w =
      Some (Some e, w') /\
    trace w' = trace w ++ evs /\
    evs = [CallNewStream name;
           CallReport connectivity.TransientFailure (Some e)] /\
    reports evs = [(connectivity.TransientFailure, Some e)] /\
    reads evs = 0 /\
    creations evs = 1.
Proof.
  intros Hdial.
  unfold core_run_health_check. rewrite session_installed.
  cbn [health_check_session call1].
  unfold bind at 1, core_newStream. rewrite Hdial.
  eexists. eexists.
  split; [reflexivity |].
  split; [cbn; now rewrite <- app_assoc |].
  repeat split.
Qed.

(** With the health-check variable empty the core makes no call and
    gets no error: the world is left as it was. *)
Lemma core_skips_empty_health_check
      (st : Vars) (ctx : option unit) (name : string) (w : World) :
  is_empty Slot.HealthCheckFunc st = true ->
  @core_run_health_check Status AppConfig st ctx name w = Some (None, w).
Proof.
  intros H. apply is_zero_sound in H.
  unfold core_run_health_check.
  change (HealthCheckFunc st) with (lookup Slot.HealthCheckFunc st).
  now rewrite H.
Qed.

(** A session never creates a second stream and never reads more than
    once past the messages it reports. *)
Lemma session_reads_bounded
      (fuel : nat) (st : Vars) (w : World) (name : string) :
  List.length (inbox w) < fuel ->
  exists (err : option SessionErr) (w' : World) (evs : list io),
    core_run_health_check
      (install Slot.HealthCheckFunc (session fuel) st) (Some tt) name w =
      Some (err, w') /\
    trace w' = trace w ++ evs /\
    creations evs = 1 /\
    reads evs <= S (List.length (inbox w)).
Proof.
  intros Hfuel.
  destruct (session_returns st w name Hfuel)
    as (w' & evs & Hrun & Ht & [Hc _ Hn]).
  exists (end_error (how_ended w)), w', evs.
  repeat split; try assumption.
  rewrite Hn. destruct (dial w (creations (trace w))); [lia |].
  unfold reads_expected, delivered, cancelled_early.
  destruct (cancel w) as [[k e] |].
  - rewrite length_firstn.
    destruct (Nat.leb k (List.length (inbox w))); lia.
  - lia.
Qed.

End SessionFacts.

(** * Uninstalled variables and the core *)

(** C7.  In every block in which a variable is uninstalled (process
    start for a variable without initialiser, or after its clear, with
    any assignments to other variables since) the read of the variable
    gives the zero value of its type and the core skips the optional
    behaviour.  For the health-check variable the core's run then
    returns no error, makes no call and leaves the world as it was,
    where the call of the nil value itself would panic. *)
Theorem uninstalled_slot_read_and_skipped :
  (forall (I : Imports) (s : Slot.name) (st : @Vars I),
      uninstalled s st ->
      lookup s st = zero_value s /\ core_use s st = Skip) /\
  (forall (Status AppConfig : Type)
          (st : @Vars (health.session_imports Status AppConfig))
          (ctx : option unit) (name : string) (w : health.World Status),
      uninstalled Slot.HealthCheckFunc st ->
      health.core_run_health_check st ctx name w = Some (None, w) /\
      health.call_health_check (HealthCheckFunc st) ctx name w = None).
Proof.
  split.
  - intros I s st H. split.
    + now apply uninstalled_lookup.
    + unfold core_use. now rewrite (uninstalled_is_empty H).
  - intros Status AppConfig st ctx name w H. split.
    + apply core_skips_empty_health_check.
      now apply uninstalled_is_empty.
    + change (HealthCheckFunc st) with (lookup Slot.HealthCheckFunc st).
      now rewrite (uninstalled_lookup H).
Qed.

(** * Declared types and constants *)

Section TypingFacts.

Context {I : Imports}.

Lemma func_typed_slot_conforms (s : Slot.name) :
  In s func_typed_slots ->
  is_func_type (decl_type s) = true /\
  documented_sig s = decl_type s /\
  (forall x : any, of_any s x = None) /\
  (forall v : slot_type s, conforms s v).
Proof.
  intros H. simpl in H.
  repeat (destruct H as [H | H]; [subst s |]); try contradiction;
    (split; [reflexivity |]); (split; [reflexivity |]);
    (split; [reflexivity |]);
    intros v; unfold conforms; destruct v; simpl; auto.
Qed.

Lemma interface_slot_accepts_any (s : Slot.name) :
  ~ In s func_typed_slots ->
  s <> Slot.KeepaliveMinPingTime ->
  decl_type s = TEmptyInterface /\
  forall (x : any) (st : Vars),
  exists v : slot_type s,
    of_any s x = Some v /\
    lookup s (install s v st) = v /\
    (conforms s v <->
     match x with
     | None => True
     | Some e => dynType e = documented_sig s
     end).
Proof.
  intros Hn Hk.
  destruct s; try (exfalso; apply Hn; simpl; tauto);
    try (now contradiction Hk);
    (split; [reflexivity |]); intros x st; exists x;
    (split; [reflexivity |]);
    (split; [apply lookup_install_same |]);
    unfold conforms; destruct x; simpl; tauto.
Qed.

(** C10, amended.  The nine variables listed as function-typed are
    declared with a function type, which is their documented signature:
    an arbitrary interface value cannot be assigned to them and whatever
    they hold conforms.  Every other variable except
    [KeepaliveMinPingTime] is declared [interface{}]: any interface
    value can be assigned and is read back, and it conforms only when
    it is nil or its dynamic type happens to be the documented
    signature.  [KeepaliveMinPingTime] is a [time.Duration], neither a
    function nor an interface. *)
Theorem slots_typed_or_untyped (s : Slot.name) :
  (In s func_typed_slots ->
   is_func_type (decl_type s) = true /\
   documented_sig s = decl_type s /\
   (forall x : any, of_any s x = None) /\
   (forall v : slot_type s, conforms s v)) /\
  (~ In s func_typed_slots ->
   s <> Slot.KeepaliveMinPingTime ->
   decl_type s = TEmptyInterface /\
   forall (x : any) (st : Vars),
   exists v : slot_type s,
     of_any s x = Some v /\
     lookup s (install s v st) = v /\
     (conforms s v <->
      match x with
      | None => True
      | Some e => dynType e = documented_sig s
      end)) /\
  decl_type Slot.KeepaliveMinPingTime = TDuration /\
  ~ In Slot.KeepaliveMinPingTime func_typed_slots.
Proof.
  split; [apply func_typed_slot_conforms |].
  split; [apply interface_slot_accepts_any |].
  split; [reflexivity |].
  simpl. intuition discriminate.
Qed.

(** A string held by an [interface{}] variable is accepted although no
    documented signature is a string. *)
Lemma string_in_interface_slot_does_not_conform
      (s : Slot.name) (d : Payload) :
  decl_type s = TEmptyInterface ->
  exists v : slot_type s,
    of_any s (Some {| dynType := TString; data := d |}) = Some v /\
    ~ conforms s v.
Proof.
  intros H.
  destruct s; try discriminate H;
    (eexists; split; [reflexivity |]); unfold conforms; simpl;
    discriminate.
Qed.

End TypingFacts.

(** C8.  The three credential-bundle modes are spelled "fallback",
    "balancer" and "backend-from-balancer", the RLS policy name is
    "rls_experimental", and the four spellings differ from one
    another. *)
Theorem constants_canonical_spelling :
  CredsBundleModeFallback = "fallback" /\
  CredsBundleModeBalancer = "balancer" /\
  CredsBundleModeBackendFromBalancer = "backend-from-balancer" /\
  RLSLoadBalancingPolicyName = "rls_experimental" /\
  NoDup [ CredsBundleModeFallback; CredsBundleModeBalancer;
          CredsBundleModeBackendFromBalancer; RLSLoadBalancingPolicyName ].
Proof.
  repeat split.
  repeat constructor; simpl; intuition discriminate.
Qed.

(** * The statements at concrete inputs *)

(** C3 as stated fails at [KeepaliveMinPingTime]: at process start it
    holds ten seconds (in nanoseconds), which is not the zero value. *)
Lemma keepalive_not_created_empty :
  @lookup scenario.imports Slot.KeepaliveMinPingTime init = 10000000000%Z /\
  @zero_value scenario.imports Slot.KeepaliveMinPingTime = 0%Z /\
  @lookup scenario.imports Slot.KeepaliveMinPingTime init <>
  zero_value Slot.KeepaliveMinPingTime.
Proof.
  split; [reflexivity |]. split; [reflexivity |]. discriminate.
Qed.

(** C10 as stated fails at [KeepaliveMinPingTime]: it is not among the
    function-typed variables, and it is not declared [interface{}]. *)
Lemma keepalive_neither_func_nor_interface :
  ~ In Slot.KeepaliveMinPingTime func_typed_slots /\
  decl_type Slot.KeepaliveMinPingTime = TDuration /\
  decl_type Slot.KeepaliveMinPingTime <> TEmptyInterface /\
  is_func_type (decl_type Slot.KeepaliveMinPingTime) = false.
Proof.
  split; [simpl; intuition discriminate |].
  split; [reflexivity |]. split; [discriminate | reflexivity].
Qed.

Lemma created_empty_except_keepalive_witness :
  Slot.HealthCheckFunc <> Slot.KeepaliveMinPingTime /\
  @lookup scenario.imports Slot.HealthCheckFunc init = None.
Proof.
  split; [discriminate |].
  apply (@created_empty_except_keepalive scenario.imports
           Slot.HealthCheckFunc).
  discriminate.
Defined.

Lemma install_and_clear_frame_witness :
  Slot.HealthCheckFunc <> Slot.KeepaliveMinPingTime /\
  @lookup scenario.imports Slot.KeepaliveMinPingTime scenario.installed =
  lookup Slot.KeepaliveMinPingTime init /\
  @lookup scenario.imports Slot.KeepaliveMinPingTime
          (clear Slot.HealthCheckFunc init) =
  lookup Slot.KeepaliveMinPingTime init.
Proof.
  split; [discriminate |].
  apply (@install_and_clear_frame scenario.imports
           Slot.HealthCheckFunc Slot.KeepaliveMinPingTime).
  discriminate.
Defined.

Lemma uninstalled_slot_read_and_skipped_witness :
  @uninstalled scenario.imports Slot.HealthCheckFunc
    (apply_op (Install (s := Slot.KeepaliveMinPingTime) 1%Z)
              (clear Slot.HealthCheckFunc scenario.installed)) /\
  health.core_run_health_check
    (apply_op (Install (s := Slot.KeepaliveMinPingTime) 1%Z)
              (clear Slot.HealthCheckFunc scenario.installed))
    (Some tt) "svc" (scenario.world health.EndOfStream) =
  Some (None, scenario.world health.EndOfStream).
Proof.
  assert (H : @uninstalled scenario.imports Slot.HealthCheckFunc
                (apply_op (Install (s := Slot.KeepaliveMinPingTime) 1%Z)
                          (clear Slot.HealthCheckFunc scenario.installed))).
  { apply uninstalled_kept; [discriminate | apply uninstalled_by_clear]. }
  split; [exact H |].
  exact (proj1 (proj2 uninstalled_slot_read_and_skipped
                      connectivity.State unit _ (Some tt) "svc"
                      (scenario.world health.EndOfStream) H)).
Defined.

Lemma slots_typed_or_untyped_witness :
  (forall v : @slot_type scenario.imports Slot.BalancerUnregister,
      conforms Slot.BalancerUnregister v) /\
  decl_type Slot.ParseServiceConfig = TEmptyInterface.
Proof.
  split.
  - apply (proj1 (@slots_typed_or_untyped scenario.imports
                    Slot.BalancerUnregister)).
    simpl. tauto.
  - apply (proj1 (proj2 (@slots_typed_or_untyped scenario.imports
                           Slot.ParseServiceConfig))).
    + simpl. intuition discriminate.
    + discriminate.
Defined.

Lemma run_writes_frame_witness :
  (forall w : @write scenario.imports,
      In w [scenario.write_health; scenario.write_unregister] ->
      target w <> Slot.KeepaliveMinPingTime) /\
  lookup Slot.KeepaliveMinPingTime
    (run_writes [scenario.write_health; scenario.write_unregister]
                (@init scenario.imports)) =
  lookup Slot.KeepaliveMinPingTime init.
Proof.
  assert (H : forall w : @write scenario.imports,
             In w [scenario.write_health; scenario.write_unregister] ->
             target w <> Slot.KeepaliveMinPingTime).
  { intros w [Hw | [Hw | []]]; subst w; discriminate. }
  split; [exact H |].
  exact (@run_writes_frame scenario.imports Slot.KeepaliveMinPingTime _
           init H).
Defined.

Lemma run_writes_any_order_witness :
  NoDup (map (@target scenario.imports)
             [scenario.write_health; scenario.write_keepalive]) /\
  run_writes [scenario.write_health; scenario.write_keepalive]
             (@init scenario.imports) =
  run_writes [scenario.write_keepalive; scenario.write_health]
             (@init scenario.imports).
Proof.
  assert (Hnd : NoDup (map (@target scenario.imports)
                           [scenario.write_health;
                            scenario.write_keepalive])).
  { simpl. repeat constructor; simpl; intuition discriminate. }
  split; [exact Hnd |].
  apply (@run_writes_any_order scenario.imports _ _
           (perm_swap scenario.write_keepalive scenario.write_health [])
           Hnd).
Defined.

Lemma install_commutes_witness :
  Slot.HealthCheckFunc <> Slot.KeepaliveMinPingTime /\
  @install scenario.imports Slot.HealthCheckFunc scenario.stub
           (install Slot.KeepaliveMinPingTime 1%Z init) =
  install Slot.KeepaliveMinPingTime 1%Z
          (install Slot.HealthCheckFunc scenario.stub init).
Proof.
  split; [discriminate |].
  apply (@install_commutes scenario.imports
           Slot.HealthCheckFunc Slot.KeepaliveMinPingTime).
  discriminate.
Defined.

Lemma session_error_iff_abnormal_witness :
  exists (err : option health.SessionErr)
         (w' : health.World connectivity.State),
    health.core_run_health_check scenario.installed (Some tt) "svc"
      (scenario.world (health.StreamFails (health.StreamError 14))) =
      Some (err, w') /\
    err <> None.
Proof.
  destruct (@session_error_iff_abnormal _ scenario.translate unit 8
              (@init scenario.imports)
              (scenario.world (health.StreamFails (health.StreamError 14)))
              "svc")
    as (err & w' & Hrun & Hiff & _).
  - simpl. lia.
  - exists err, w'. split; [exact Hrun |]. apply Hiff. reflexivity.
Defined.

Lemma reports_in_stream_order_witness :
  exists (err : option health.SessionErr)
         (w' : health.World connectivity.State) (evs : list health.io),
    health.core_run_health_check scenario.installed (Some tt) "svc"
      (scenario.world health.EndOfStream) = Some (err, w') /\
    health.trace w' = evs /\
    map fst (health.reports evs) =
    [connectivity.Ready; connectivity.TransientFailure; connectivity.Ready].
Proof.
  destruct (@reports_in_stream_order _ scenario.translate unit 8
              (@init scenario.imports)
              (scenario.world health.EndOfStream) "svc")
    as (err & w' & evs & Hrun & Ht & Hr).
  - simpl. lia.
  - reflexivity.
  - exists err, w', evs. split; [exact Hrun |]. split; [exact Ht |].
    exact Hr.
Defined.

Lemma creation_failure_ends_session_witness :
  exists w' : health.World connectivity.State,
    health.core_run_health_check scenario.installed (Some tt) "svc"
      scenario.world_unreachable =
      Some (Some (health.StreamError 14), w') /\
    health.trace w' =
    [health.CallNewStream "svc";
     health.CallReport connectivity.TransientFailure
                       (Some (health.StreamError 14))].
Proof.
  destruct (@creation_failure_ends_session _ scenario.translate unit 8
              (@init scenario.imports) scenario.world_unreachable "svc"
              (health.StreamError 14))
    as (w' & evs & Hrun & Ht & Hevs & _).
  - reflexivity.
  - exists w'. split; [exact Hrun |]. rewrite Ht, Hevs. reflexivity.
Defined.

(** * The scenarios of the specification, run *)

(** The stream emits READY, TRANSIENT_FAILURE, READY and ends cleanly:
    the three states are reported in that order and no error is
    returned. *)
Example three_states_then_clean_end :
  option_map (fun r => (fst r, health.reports (health.trace (snd r))))
    (health.core_run_health_check scenario.installed (Some tt) "svc"
       (scenario.world health.EndOfStream)) =
  Some (None,
        [ (connectivity.Ready, None);
          (connectivity.TransientFailure, None);
          (connectivity.Ready, None) ]).
Proof. reflexivity. Qed.

(** The same stream ending with a failure: a fourth report carries the
    error, which is returned. *)
Example three_states_then_failure :
  option_map (fun r => (fst r, health.reports (health.trace (snd r))))
    (health.core_run_health_check scenario.installed (Some tt) "svc"
       (scenario.world (health.StreamFails (health.StreamError 14)))) =
  Some (Some (health.StreamError 14),
        [ (connectivity.Ready, None);
          (connectivity.TransientFailure, None);
          (connectivity.Ready, None);
          (connectivity.TransientFailure, Some (health.StreamError 14)) ]).
Proof. reflexivity. Qed.

(** The context cancelled at its third poll: two reports, no third, and
    the cancellation error. *)
Example cancelled_mid_stream :
  option_map (fun r => (fst r, health.reports (health.trace (snd r)),
                        health.reads (health.trace (snd r))))
    (health.core_run_health_check scenario.installed (Some tt) "svc"
       scenario.world_cancelled) =
  Some (Some health.Canceled,
        [ (connectivity.Ready, None);
          (connectivity.TransientFailure, None) ],
        2).
Proof. reflexivity. Qed.

(** A stub installed in the health-check variable and called by the
    core: CONNECTING then READY, no error. *)
Example stub_reports_connecting_then_ready :
  option_map (fun r => (fst r, health.reports (health.trace (snd r))))
    (health.core_run_health_check
       (@install scenario.imports Slot.HealthCheckFunc scenario.stub init)
       (Some tt) "svc" (scenario.world health.EndOfStream)) =
  Some (None,
        [ (connectivity.Connecting, None); (connectivity.Ready, None) ]).
Proof. reflexivity. Qed.

(** With too little fuel the loop does not return. *)
Example out_of_fuel_does_not_return :
  health.core_run_health_check
    (@install scenario.imports Slot.HealthCheckFunc
              (health.health_check_session scenario.translate unit 3) init)
    (Some tt) "svc" (scenario.world health.EndOfStream) = None.
Proof. reflexivity. Qed.
